(** * Shallow embedding of the social-media-app Express/Mongoose backend

    Covers [models/User.js], [models/Post.js], [models/Message.js],
    [middleware/authMiddleware.js], [utils/jwt.js], the auth, post and
    message controllers, the post and message routers and [app.js].

    The document store is a record of collections (lists in natural
    insertion order).  The cryptographic primitives (jsonwebtoken, bcryptjs)
    are opaque: they are the fields of an [Env] record, the way the source
    reads them through [process.env.JWT_SECRET] and the libraries. *)

From Stdlib Require Import List String Ascii ZArith Bool Lia Permutation Sorted.
Import ListNotations.
Open Scope string_scope.

(** ** Identifiers and request bodies *)

(** A Mongo ObjectId, as the number its 24 hex digits spell. *)
Definition oid := N.

Definition hex_digit (c : ascii) : option N :=
  let n := nat_of_ascii c in
  if (48 <=? n)%nat && (n <=? 57)%nat then Some (N.of_nat (n - 48))
  else if (97 <=? n)%nat && (n <=? 102)%nat then Some (N.of_nat (n - 87))
  else if (65 <=? n)%nat && (n <=? 70)%nat then Some (N.of_nat (n - 55))
  else None.

Fixpoint hex_value (acc : N) (s : string) : option N :=
  match s with
  | EmptyString => Some acc
  | String c r =>
      match hex_digit c with
      | Some d => hex_value (acc * 16 + d)%N r
      | None => None
      end
  end.

(** The 12 bytes of a 12-character string ([Buffer.from(s)], UTF-8): only
    ASCII characters give one byte each. *)
Fixpoint bytes_value (acc : N) (s : string) : option N :=
  match s with
  | EmptyString => Some acc
  | String c r =>
      let n := nat_of_ascii c in
      if (n <? 128)%nat then bytes_value (acc * 256 + N.of_nat n)%N r else None
  end.

(** Mongoose's ObjectId cast of a string ([new ObjectId(s)], bson 4): a
    string of 12 characters that are 12 bytes, or of 24 hex digits;
    anything else throws and Mongoose reports a [CastError]. *)
Definition parse_oid (s : string) : option oid :=
  if (String.length s =? 12)%nat then bytes_value 0%N s
  else if (String.length s =? 24)%nat then hex_value 0%N s
  else None.

(** A JSON value of a parsed request body ([express.json()]). *)
Inductive jval :=
| JStr (s : string)
| JBool (b : bool)
| JNull.

Definition jbody := list (string * jval).

(** [req.body.k]: [JSON.parse] keeps the last of duplicated keys. *)
Fixpoint jget (k : string) (b : jbody) : option jval :=
  match b with
  | [] => None
  | (k', v) :: r =>
      match jget k r with
      | Some w => Some w
      | None => if String.eqb k k' then Some v else None
      end
  end.

(** Mongoose's cast of a value to a [String] path; [None] is "no value". *)
Definition cast_string (v : option jval) : option string :=
  match v with
  | Some (JStr s) => Some s
  | Some (JBool true) => Some "true"
  | Some (JBool false) => Some "false"
  | Some JNull | None => None
  end.

(** A [required: true] String path fails validation on a missing value and
    on the empty string. *)
Definition required_string (v : option jval) : option string :=
  match cast_string v with
  | Some "" | None => None
  | Some s => Some s
  end.

(** Cast to an ObjectId path. *)
Definition cast_oid (v : option jval) : option oid :=
  match v with
  | Some (JStr s) => parse_oid s
  | _ => None
  end.

(** ** Documents *)

(** A reference path: the stored ObjectId, or after [.populate] the
    selected fields of the referenced user ([null] when it is gone). *)
Record UserRef := mkUserRef {
  r_id : oid;
  r_username : string;
  r_profilePicture : option string
}.

Inductive ref :=
| RId (id : oid)
| RPop (u : option UserRef).

(** [models/User.js]; [password] is [None] when the field is absent from the
    document (after [.select('-password')]). *)
Record User := mkUser {
  u_id : oid;
  u_username : string;
  u_email : string;
  u_password : option string;
  u_bio : option string;
  u_profilePicture : option string;
  u_followers : list oid;
  u_following : list oid;
  u_createdAt : Z
}.

Record Comment := mkComment {
  c_user : ref;
  c_text : string;
  c_createdAt : Z
}.

(** [models/Post.js] *)
Record Post := mkPost {
  p_id : oid;
  p_user : ref;
  p_content : string;
  p_image : option string;
  p_likes : list oid;
  p_comments : list Comment;
  p_createdAt : Z
}.

(** [models/Message.js] *)
Record Message := mkMessage {
  m_id : oid;
  m_sender : ref;
  m_recipient : ref;
  m_content : string;
  m_read : bool;
  m_createdAt : Z
}.

(** The database, plus the clock used for [timestamps: true] and a count of
    the bcrypt hashing work performed (the [pre('save')] hook). *)
Record Store := mkStore {
  users : list User;
  posts : list Post;
  messages : list Message;
  next_oid : oid;
  now : Z;
  hash_work : nat
}.

(** The opaque primitives: [jwt.verify(token, JWT_SECRET).id] ([None] when it
    throws: bad signature, malformed, expired), [generateToken],
    [bcrypt.hash] with a salt drawn from a seed, and [bcrypt.compare]. *)
Record Env := mkEnv {
  jwt_verify : string -> option oid;
  jwt_sign : oid -> string;
  bcrypt_hash : nat -> string -> string;
  bcrypt_compare : string -> string -> bool
}.

(** ** Requests and responses *)

Inductive method := GET | POST | PUT | DELETE.

Record Request := mkRequest {
  rq_method : method;
  rq_path : list string;            (* path segments *)
  rq_authorization : option string; (* req.headers.authorization *)
  rq_body : jbody
}.

Inductive Body :=
| BMsg (message : string)                             (* { message } *)
| BUser (id : oid) (username email token : string)    (* auth result *)
| BPost (p : Post)
| BPosts (ps : list Post)
| BMessage (m : Message)
| BMessages (ms : list Message)
| BText (s : string).                                  (* Express default page *)

(** [Respond] is a response sent; [Unhandled] is a rejected async handler:
    Express 4 sends nothing for it. *)
Inductive Response :=
| Respond (status : Z) (b : Body)
| Unhandled (err : string).

Definition type_error_user_id : string :=
  "TypeError: Cannot read properties of null (reading '_id')".

(** ** Store queries *)

Definition find_user (id : oid) (st : Store) : option User :=
  find (fun u => N.eqb (u_id u) id) (users st).

Definition find_post (id : oid) (st : Store) : option Post :=
  find (fun p => N.eqb (p_id p) id) (posts st).

Definition find_message (id : oid) (st : Store) : option Message :=
  find (fun m => N.eqb (m_id m) id) (messages st).

Definition ref_is (r : ref) (id : oid) : bool :=
  match r with
  | RId i => N.eqb i id
  | RPop _ => false
  end.

(** [User.findOne({ email })], first match in natural order.  An
    [undefined] or [null] email is sent as [{ email: null }], which matches
    only documents without an email: none, since [email] is required. *)
Definition find_user_by_email (v : option jval) (st : Store) : option User :=
  match cast_string v with
  | Some e => find (fun u => String.eqb (u_email u) e) (users st)
  | None => None
  end.

(** [.select('-password')] *)
Definition without_password (u : User) : User :=
  mkUser (u_id u) (u_username u) (u_email u) None (u_bio u)
         (u_profilePicture u) (u_followers u) (u_following u) (u_createdAt u).

(** [.populate(path, '_id username profilePicture')] *)
Definition populate_ref (st : Store) (r : ref) : ref :=
  match r with
  | RId id =>
      RPop (option_map (fun u => mkUserRef (u_id u) (u_username u)
                                           (u_profilePicture u))
                       (find_user id st))
  | RPop _ => r
  end.

(** ** [middleware/authMiddleware.js] *)

(** [s.split(' ')] *)
Fixpoint split_sp (s : string) : list string :=
  match s with
  | EmptyString => [EmptyString]
  | String c r =>
      let parts := split_sp r in
      if Ascii.eqb c " "%char then EmptyString :: parts
      else match parts with
           | p :: ps => String c p :: ps
           | [] => [String c EmptyString]
           end
  end.

(** [req.headers.authorization.split(' ')[1]] ([None] is [undefined]). *)
Definition bearer_token (h : string) : option string :=
  nth_error (split_sp h) 1.

Inductive MwResult :=
| MwNext (user : option User)          (* next() with req.user set *)
| MwReject (status : Z) (message : string).

(** The middleware.  When the token is [undefined] or [""] the catch block
    answers 401 and the trailing [if (!token)] writes a second time; that
    second write only throws after the first response was sent. *)
Definition authMiddleware (env : Env) (st : Store) (req : Request) : MwResult :=
  match rq_authorization req with
  | Some h =>
      if String.prefix "Bearer" h then
        match bearer_token h with
        | Some tok =>
            if String.eqb tok "" then MwReject 401 "Not authorized, token failed"
            else match jwt_verify env tok with
                 | Some id => MwNext (option_map without_password (find_user id st))
                 | None => MwReject 401 "Not authorized, token failed"
                 end
        | None => MwReject 401 "Not authorized, token failed"
        end
      else MwReject 401 "Not authorized, no token"
  | None => MwReject 401 "Not authorized, no token"
  end.

(** ** [controllers/authController.js] *)

(** [User.create]: schema validation, then the [pre('save')] hook hashes the
    password with a fresh salt, then the insert, which the unique indexes on
    [username] and [email] reject with a duplicate-key error. *)
Definition user_create (env : Env) (st : Store) (body : jbody)
  : Response * Store :=
  match required_string (jget "username" body),
        required_string (jget "email" body),
        required_string (jget "password" body) with
  | Some name, Some email, Some pw =>
      let st1 := mkStore (users st) (posts st) (messages st) (next_oid st)
                         (now st) (S (hash_work st)) in
      let hashed := bcrypt_hash env (hash_work st) pw in
      if existsb (fun u => String.eqb (u_username u) name
                           || String.eqb (u_email u) email) (users st)
      then (Unhandled "MongoServerError: E11000 duplicate key error", st1)
      else
        let u := mkUser (next_oid st) name email (Some hashed) None None [] []
                        (now st) in
        (Respond 201 (BUser (u_id u) name email (jwt_sign env (u_id u))),
         mkStore (users st ++ [u]) (posts st) (messages st)
                 (N.succ (next_oid st)) (now st) (S (hash_work st)))
  | _, _, _ => (Unhandled "ValidationError: User validation failed", st)
  end.

Definition registerUser (env : Env) (st : Store) (req : Request)
  : Response * Store :=
  match find_user_by_email (jget "email" (rq_body req)) st with
  | Some _ => (Respond 400 (BMsg "User already exists"), st)
  | None => user_create env st (rq_body req)
  end.

(** [user.matchPassword(password)]: [bcrypt.compare] throws unless both
    arguments are strings. *)
Definition matchPassword (env : Env) (u : User) (v : option jval)
  : option bool :=
  match v, u_password u with
  | Some (JStr pw), Some h => Some (bcrypt_compare env pw h)
  | _, _ => None
  end.

Definition loginUser (env : Env) (st : Store) (req : Request)
  : Response * Store :=
  let body := rq_body req in
  match find_user_by_email (jget "email" body) st with
  | Some u =>
      match matchPassword env u (jget "password" body) with
      | Some true =>
          (Respond 200 (BUser (u_id u) (u_username u) (u_email u)
                              (jwt_sign env (u_id u))), st)
      | Some false => (Respond 401 (BMsg "Invalid email or password"), st)
      | None => (Unhandled "Error: Illegal arguments", st)
      end
  | None => (Respond 401 (BMsg "Invalid email or password"), st)
  end.

(** ** [controllers/postController.js] *)

(** [Post.find().sort({ createdAt: -1 })] and the message analogue: a stable
    sort, newest first. *)
Section SortDesc.
Context {A : Type} (created : A -> Z).

Fixpoint insert_desc (x : A) (l : list A) : list A :=
  match l with
  | [] => [x]
  | y :: r => if (created y <=? created x)%Z then x :: l else y :: insert_desc x r
  end.

Fixpoint sort_desc (l : list A) : list A :=
  match l with
  | [] => []
  | x :: r => insert_desc x (sort_desc r)
  end.
End SortDesc.

Definition populate_post_user (st : Store) (p : Post) : Post :=
  mkPost (p_id p) (populate_ref st (p_user p)) (p_content p) (p_image p)
         (p_likes p) (p_comments p) (p_createdAt p).

Definition createPost (st : Store) (user : option User) (req : Request)
  : Response * Store :=
  match user with
  | None => (Unhandled type_error_user_id, st)
  | Some u =>
      let body := rq_body req in
      match required_string (jget "content" body) with
      | Some content =>
          let p := mkPost (next_oid st) (RId (u_id u)) content
                          (cast_string (jget "image" body)) [] [] (now st) in
          (Respond 201 (BPost p),
           mkStore (users st) (posts st ++ [p]) (messages st)
                   (N.succ (next_oid st)) (now st) (hash_work st))
      | None => (Unhandled "ValidationError: Post validation failed", st)
      end
  end.

(** The comments' nested populate is not modelled: only [user] is filled. *)
Definition getPosts (st : Store) : Response * Store :=
  (Respond 200 (BPosts (map (populate_post_user st)
                            (sort_desc p_createdAt (posts st)))), st).

Definition getPost (st : Store) (param : string) : Response * Store :=
  match parse_oid param with
  | None => (Unhandled "CastError: Cast to ObjectId failed", st)
  | Some id =>
      match find_post id st with
      | Some p => (Respond 200 (BPost (populate_post_user st p)), st)
      | None => (Respond 404 (BMsg "Post not found"), st)
      end
  end.

Definition remove_post (id : oid) (st : Store) : Store :=
  mkStore (users st) (filter (fun p => negb (N.eqb (p_id p) id)) (posts st))
          (messages st) (next_oid st) (now st) (hash_work st).

(** [post && post.user.equals(req.user._id)]: [req.user._id] is only read
    when the post exists. *)
Definition deletePost (st : Store) (user : option User) (param : string)
  : Response * Store :=
  match parse_oid param with
  | None => (Unhandled "CastError: Cast to ObjectId failed", st)
  | Some id =>
      match find_post id st with
      | None => (Respond 404 (BMsg "Post not found"), st)
      | Some p =>
          match user with
          | None => (Unhandled type_error_user_id, st)
          | Some u =>
              if ref_is (p_user p) (u_id u)
              then (Respond 200 (BMsg "Post removed"), remove_post id st)
              else (Respond 404 (BMsg "Post not found"), st)
          end
      end
  end.

(** ** [controllers/messageController.js] *)

Definition sendMessage (st : Store) (user : option User) (req : Request)
  : Response * Store :=
  match user with
  | None => (Unhandled type_error_user_id, st)
  | Some u =>
      let body := rq_body req in
      match cast_oid (jget "recipient" body),
            required_string (jget "content" body) with
      | Some r, Some content =>
          let m := mkMessage (next_oid st) (RId (u_id u)) (RId r) content
                             false (now st) in
          (Respond 201 (BMessage m),
           mkStore (users st) (posts st) (messages st ++ [m])
                   (N.succ (next_oid st)) (now st) (hash_work st))
      | _, _ => (Unhandled "ValidationError: Message validation failed", st)
      end
  end.

Definition populate_sender (st : Store) (m : Message) : Message :=
  mkMessage (m_id m) (populate_ref st (m_sender m)) (m_recipient m)
            (m_content m) (m_read m) (m_createdAt m).

Definition populate_both (st : Store) (m : Message) : Message :=
  mkMessage (m_id m) (populate_ref st (m_sender m))
            (populate_ref st (m_recipient m))
            (m_content m) (m_read m) (m_createdAt m).

Definition addressed_to (id : oid) (m : Message) : bool :=
  ref_is (m_recipient m) id.

Definition getMessages (st : Store) (user : option User) : Response * Store :=
  match user with
  | None => (Unhandled type_error_user_id, st)
  | Some u =>
      (Respond 200 (BMessages
         (map (populate_sender st)
              (sort_desc m_createdAt (filter (addressed_to (u_id u))
                                             (messages st))))), st)
  end.

Definition getMessage (st : Store) (param : string) : Response * Store :=
  match parse_oid param with
  | None => (Unhandled "CastError: Cast to ObjectId failed", st)
  | Some id =>
      match find_message id st with
      | Some m => (Respond 200 (BMessage (populate_both st m)), st)
      | None => (Respond 404 (BMsg "Message not found"), st)
      end
  end.

(** ** Routers and [app.js] *)

Inductive Handler :=
| H_registerUser | H_loginUser
| H_createPost | H_getPosts | H_getPost | H_deletePost
| H_sendMessage | H_getMessages | H_getMessage.

(** A route path relative to the mount point: ['/'], ['/:id'] or a literal
    segment such as ['/register']. *)
Inductive RoutePath := PRoot | PParam | PLit (s : string).

Inductive Layer :=
| UseAuth                                         (* router.use(authMiddleware) *)
| Route (m : method) (p : RoutePath) (h : Handler).

(** [routes/authRoutes.js] *)
Definition authRoutes : list Layer :=
  [Route POST (PLit "register") H_registerUser;
   Route POST (PLit "login") H_loginUser].

(** [routes/postRoutes.js] *)
Definition postRoutes : list Layer :=
  [UseAuth;
   Route POST PRoot H_createPost;
   Route GET PRoot H_getPosts;
   Route GET PParam H_getPost;
   Route DELETE PParam H_deletePost].

(** [routes/messageRoutes.js] *)
Definition messageRoutes : list Layer :=
  [UseAuth;
   Route POST PRoot H_sendMessage;
   Route GET PRoot H_getMessages;
   Route GET PParam H_getMessage].

(** [app.use(mount, router)] in order. *)
Definition app : list (list string * list Layer) :=
  [(["api"; "auth"], authRoutes);
   (["api"; "posts"], postRoutes);
   (["api"; "messages"], messageRoutes)].

Definition method_eqb (a b : method) : bool :=
  match a, b with
  | GET, GET | POST, POST | PUT, PUT | DELETE, DELETE => true
  | _, _ => false
  end.

(** Matching the rest of the path; the result is [req.params.id]. *)
Definition match_path (p : RoutePath) (rest : list string) : option string :=
  match p, rest with
  | PRoot, [] => Some ""
  | PParam, [s] => if String.eqb s "" then None else Some s
  | PLit l, [s] => if String.eqb s l then Some "" else None
  | _, _ => None
  end.

Definition run_handler (env : Env) (st : Store) (h : Handler)
  (user : option User) (param : string) (req : Request) : Response * Store :=
  match h with
  | H_registerUser => registerUser env st req
  | H_loginUser => loginUser env st req
  | H_createPost => createPost st user req
  | H_getPosts => getPosts st
  | H_getPost => getPost st param
  | H_deletePost => deletePost st user param
  | H_sendMessage => sendMessage st user req
  | H_getMessages => getMessages st user
  | H_getMessage => getMessage st param
  end.

(** The outcome of a request: the handler that ran (if any), the response
    and the new store. *)
Definition Outcome : Type := option Handler * Response * Store.

(** A router's layers in order; [None] means the router called [next()]
    past its last layer (no route matched). *)
Fixpoint run_router (env : Env) (st : Store) (req : Request)
  (rest : list string) (user : option User) (ls : list Layer)
  : option Outcome :=
  match ls with
  | [] => None
  | UseAuth :: ls' =>
      match authMiddleware env st req with
      | MwReject s msg => Some (None, Respond s (BMsg msg), st)
      | MwNext u => run_router env st req rest u ls'
      end
  | Route m p h :: ls' =>
      if method_eqb m (rq_method req) then
        match match_path p rest with
        | Some param =>
            let '(r, st') := run_handler env st h user param req in
            Some (Some h, r, st')
        | None => run_router env st req rest user ls'
        end
      else run_router env st req rest user ls'
  end.

Fixpoint strip_prefix (pre l : list string) : option (list string) :=
  match pre, l with
  | [], _ => Some l
  | x :: pre', y :: l' => if String.eqb x y then strip_prefix pre' l' else None
  | _ :: _, [] => None
  end.

Fixpoint run_app (env : Env) (st : Store) (req : Request)
  (mounts : list (list string * list Layer)) : Outcome :=
  match mounts with
  | [] => (None, Respond 404 (BText "Cannot handle request"), st)
  | (pre, router) :: ms =>
      match strip_prefix pre (rq_path req) with
      | Some rest =>
          match run_router env st req rest None router with
          | Some o => o
          | None => run_app env st req ms
          end
      | None => run_app env st req ms
      end
  end.

(** One request through the Express application. *)
Definition dispatch (env : Env) (st : Store) (req : Request) : Outcome :=
  run_app env st req app.

(** The handlers mounted under [/api/posts] and [/api/messages]. *)
Definition protected (h : Handler) : bool :=
  match h with
  | H_registerUser | H_loginUser => false
  | _ => true
  end.

(** ** A concrete environment and store for the examples *)

(** Token ["tok<n>"] verifies to user [n] (for [n] of one digit); anything
    else fails verification.  Hashes are ["h:" ++ password]. *)
Definition test_env : Env :=
  mkEnv
    (fun t => match t with
              | String "t" (String "o" (String "k" (String d EmptyString))) =>
                  hex_digit d
              | _ => None
              end)
    (fun id => "signed")
    (fun _ pw => "h:" ++ pw)
    (fun pw h => String.eqb ("h:" ++ pw) h).

Definition mk_test_user (id : oid) (name email : string) : User :=
  mkUser id name email (Some ("h:pw" ++ name)) None None [] [] 0.

Definition alice := mk_test_user 1%N "alice" "alice@x".
Definition bob := mk_test_user 2%N "bob" "bob@x".
Definition carol := mk_test_user 3%N "carol" "carol@x".

Definition hex24 (d : string) : string := "00000000000000000000000" ++ d.

(** Message 10 from alice to bob; post 11 by alice. *)
Definition test_message : Message := mkMessage 10%N (RId 1%N) (RId 2%N) "hi bob" false 5%Z.
Definition test_post : Post := mkPost 11%N (RId 1%N) "hello" None [] [] 4%Z.

Definition test_store : Store :=
  mkStore [alice; bob; carol] [test_post] [test_message] 12%N 7%Z 0.

Definition req_as (m : method) (path : list string) (user_digit : string)
  (body : jbody) : Request :=
  mkRequest m path (Some ("Bearer tok" ++ user_digit)) body.

(** ** Store invariants *)

(** What one request may do to the store: users and messages are only
    appended to (new messages unread), and posts are appended to or have one
    id removed. *)
Definition store_grows (st st' : Store) : Prop :=
  (exists lu, users st' = (users st ++ lu)%list) /\
  (exists lm, messages st' = (messages st ++ lm)%list /\
              Forall (fun m => m_read m = false) lm) /\
  ((exists lp, posts st' = (posts st ++ lp)%list) \/
   (exists id, posts st' = filter (fun p => negb (N.eqb (p_id p) id)) (posts st))).


(** Every stored id is below the next ObjectId to be handed out. *)
Definition fresh_ids (st : Store) : Prop :=
  Forall (fun u => (u_id u < next_oid st)%N) (users st) /\
  Forall (fun p => (p_id p < next_oid st)%N) (posts st) /\
  Forall (fun m => (m_id m < next_oid st)%N) (messages st).

(** ** Properties *)

(** Case analysis on every [match] of an evaluated outcome. *)
Ltac split_matches H :=
  repeat match type of H with
  | context [match ?x with _ => _ end] => destruct x eqn:?; try discriminate H
  end.

(** *** The auth gate *)

Lemma parse_oid_nonempty (s : string) (id : oid) :
  parse_oid s = Some id -> s <> "".
Proof. intros H ->. discriminate H. Qed.

(** What [next()] with an identity needs: a bearer token that verifies, and
    the identity is the stored user of that id without its password. *)
Lemma authMiddleware_next_inv (env : Env) (st : Store) (req : Request)
  (u : option User) :
  authMiddleware env st req = MwNext u ->
  exists hdr tok id,
    rq_authorization req = Some hdr /\ String.prefix "Bearer" hdr = true /\
    bearer_token hdr = Some tok /\ tok <> "" /\ jwt_verify env tok = Some id /\
    u = option_map without_password (find_user id st).
Proof.
  unfold authMiddleware.
  destruct (rq_authorization req) as [hdr|]; [|discriminate].
  destruct (String.prefix "Bearer" hdr) eqn:Hp; [|discriminate].
  destruct (bearer_token hdr) as [tok|] eqn:Ht; [|discriminate].
  destruct (String.eqb tok "") eqn:He; [discriminate|].
  destruct (jwt_verify env tok) as [id|] eqn:Hv; [|discriminate].
  intros H; injection H as <-.
  exists hdr, tok, id; repeat split; auto.
  intros ->; discriminate He.
Qed.

Lemma guarded_router_next (env : Env) (st : Store) (req : Request)
  (rest : list string) (user : option User) (ls : list Layer)
  (h : Handler) (r : Response) (st' : Store) :
  run_router env st req rest user (UseAuth :: ls) = Some (Some h, r, st') ->
  exists u, authMiddleware env st req = MwNext u.
Proof.
  simpl. destruct (authMiddleware env st req) as [u|s msg].
  - intros _; exists u; reflexivity.
  - discriminate.
Qed.

Lemma authRoutes_unprotected (env : Env) (st : Store) (req : Request)
  (rest : list string) (user : option User)
  (h : Handler) (r : Response) (st' : Store) :
  run_router env st req rest user authRoutes = Some (Some h, r, st') ->
  protected h = false.
Proof.
  unfold authRoutes; simpl; intros H.
  split_matches H; inversion H; reflexivity.
Qed.

(** Every mounted router is either the auth router or starts with the gate. *)
Definition guarded_mount (m : list string * list Layer) : Prop :=
  snd m = authRoutes \/ exists ls', snd m = UseAuth :: ls'.

Lemma run_app_guarded (env : Env) (st : Store) (req : Request)
  (mounts : list (list string * list Layer))
  (h : Handler) (r : Response) (st' : Store) :
  Forall guarded_mount mounts ->
  run_app env st req mounts = (Some h, r, st') ->
  protected h = true ->
  exists u, authMiddleware env st req = MwNext u.
Proof.
  induction mounts as [|[pre ls] ms IH]; simpl; intros HF Hr Hp.
  - discriminate Hr.
  - inversion HF as [|? ? Hls HF']; subst.
    destruct (strip_prefix pre (rq_path req)) as [rest|]; [|eauto].
    destruct (run_router env st req rest None ls) as [o|] eqn:Ho; [|eauto].
    subst o. destruct Hls as [Hls | [ls' Hls]]; simpl in Hls; subst ls.
    + apply authRoutes_unprotected in Ho; congruence.
    + eapply guarded_router_next; eauto.
Qed.

Lemma app_guarded : Forall guarded_mount app.
Proof.
  unfold app, guarded_mount.
  repeat apply Forall_cons; try apply Forall_nil; simpl;
    first [left; reflexivity | right; eexists; reflexivity].
Qed.

(** C9: every handler mounted under [/api/posts] and [/api/messages] (which
    includes the reads [getPosts], [getPost], [getMessages], [getMessage])
    runs only for a request whose [Authorization] header starts with
    [Bearer] and carries a non-empty token that [jwt.verify] accepts. *)
Theorem protected_routes_need_verified_token (env : Env) (st : Store)
  (req : Request) (h : Handler) (r : Response) (st' : Store) :
  dispatch env st req = (Some h, r, st') ->
  protected h = true ->
  exists hdr tok id,
    rq_authorization req = Some hdr /\ String.prefix "Bearer" hdr = true /\
    bearer_token hdr = Some tok /\ tok <> "" /\ jwt_verify env tok = Some id.
Proof.
  intros Hd Hp.
  destruct (run_app_guarded env st req app h r st' app_guarded Hd Hp) as [u Hu].
  destruct (authMiddleware_next_inv env st req u Hu)
    as (hdr & tok & id & H1 & H2 & H3 & H4 & H5 & _).
  exists hdr, tok, id; auto.
Qed.

(** C6: when the gate attaches an identity, it is the stored user named by
    the verified token with the [password] field removed and every other
    field kept. *)
Theorem auth_attaches_identity_without_password (env : Env) (st : Store)
  (req : Request) (u : User) :
  authMiddleware env st req = MwNext (Some u) ->
  u_password u = None /\
  exists hdr tok id su,
    rq_authorization req = Some hdr /\ bearer_token hdr = Some tok /\
    jwt_verify env tok = Some id /\ find_user id st = Some su /\
    u = without_password su.
Proof.
  intros H.
  destruct (authMiddleware_next_inv env st req (Some u) H)
    as (hdr & tok & id & H1 & _ & H3 & _ & H5 & H6).
  destruct (find_user id st) as [su|] eqn:Hf; simpl in H6; [|discriminate].
  injection H6 as ->.
  split; [reflexivity|].
  exists hdr, tok, id, su; auto.
Qed.

(** *** Ownership-checked deletion *)

(** C4: [DELETE /api/posts/:id] for an existing post: the owner gets 200 and
    the post is gone; anyone else gets 404 and the store is unchanged. *)
Theorem deletePost_owner_or_404 (env : Env) (st : Store) (req : Request)
  (s : string) (pid : oid) (u : User) (p : Post) :
  rq_method req = DELETE ->
  rq_path req = ["api"; "posts"; s] ->
  parse_oid s = Some pid ->
  authMiddleware env st req = MwNext (Some u) ->
  find_post pid st = Some p ->
  (p_user p = RId (u_id u) ->
     dispatch env st req =
       (Some H_deletePost, Respond 200 (BMsg "Post removed"), remove_post pid st) /\
     find_post pid (remove_post pid st) = None) /\
  (p_user p <> RId (u_id u) ->
     dispatch env st req =
       (Some H_deletePost, Respond 404 (BMsg "Post not found"), st)).
Proof.
  intros Hm Hpath Hs Hauth Hf.
  assert (Hd : forall r0 s0, deletePost st (Some u) s = (r0, s0) ->
                dispatch env st req = (Some H_deletePost, r0, s0)).
  { intros r0 s0 Hdel.
    unfold dispatch, app, postRoutes; cbn [run_app strip_prefix].
    rewrite Hpath; cbn [strip_prefix String.eqb Ascii.eqb Bool.eqb andb].
    cbn [run_router]. rewrite Hauth, Hm; cbn [method_eqb match_path].
    destruct (String.eqb s "") eqn:He.
    - apply String.eqb_eq in He. exfalso; exact (parse_oid_nonempty s pid Hs He).
    - cbn [run_handler]. rewrite Hdel; reflexivity. }
  unfold deletePost in Hd; rewrite Hs, Hf in Hd.
  split.
  - intros Ho. rewrite Ho in Hd; cbn [ref_is] in Hd; rewrite N.eqb_refl in Hd.
    split; [apply Hd; reflexivity|].
    unfold find_post, remove_post; simpl.
    induction (posts st) as [|q qs IH]; simpl; [reflexivity|].
    destruct (N.eqb (p_id q) pid) eqn:Hq; simpl; [exact IH|].
    rewrite Hq; exact IH.
  - intros Ho. apply Hd.
    destruct (p_user p) as [i|pu] eqn:Hpu; cbn [ref_is]; [|reflexivity].
    destruct (N.eqb i (u_id u)) eqn:Hi; [|reflexivity].
    apply N.eqb_eq in Hi; subst i; contradiction.
Qed.

(** *** Sorting newest first *)

Section SortDescProps.
Context {A : Type} (created : A -> Z).

Definition newer_or_same (a b : A) : Prop := (created b <= created a)%Z.

Lemma insert_desc_perm (x : A) (l : list A) :
  Permutation (x :: l) (insert_desc created x l).
Proof.
  induction l as [|y r IH]; simpl; [reflexivity|].
  destruct (created y <=? created x)%Z; [reflexivity|].
  rewrite perm_swap. constructor. exact IH.
Qed.

Lemma sort_desc_perm (l : list A) : Permutation l (sort_desc created l).
Proof.
  induction l as [|x r IH]; simpl; [constructor|].
  rewrite <- insert_desc_perm. constructor. exact IH.
Qed.

Lemma insert_desc_sorted (x : A) (l : list A) :
  Sorted newer_or_same l -> Sorted newer_or_same (insert_desc created x l).
Proof.
  induction 1 as [|y r Hs IH Hhd]; simpl.
  - repeat constructor.
  - unfold newer_or_same in *.
    destruct (created y <=? created x)%Z eqn:Hyx.
    + apply Z.leb_le in Hyx. constructor; [constructor; assumption|].
      constructor; exact Hyx.
    + apply Z.leb_gt in Hyx. constructor; [exact IH|].
      destruct r as [|z r']; simpl.
      * constructor; unfold newer_or_same; lia.
      * inversion Hhd; subst.
        destruct (created z <=? created x)%Z; constructor;
          unfold newer_or_same; lia.
Qed.

Lemma sort_desc_sorted (l : list A) : Sorted newer_or_same (sort_desc created l).
Proof.
  induction l as [|x r IH]; simpl; [constructor|].
  apply insert_desc_sorted; exact IH.
Qed.
End SortDescProps.

(** C8: [GET /api/messages] answers 200 with exactly the stored messages
    addressed to the resolved identity (each with its sender populated),
    newest first. *)
Theorem getMessages_inbox_newest_first (env : Env) (st : Store)
  (req : Request) (u : User) :
  rq_method req = GET ->
  rq_path req = ["api"; "messages"] ->
  authMiddleware env st req = MwNext (Some u) ->
  exists l,
    Permutation l (filter (addressed_to (u_id u)) (messages st)) /\
    Sorted (newer_or_same m_createdAt) l /\
    dispatch env st req =
      (Some H_getMessages, Respond 200 (BMessages (map (populate_sender st) l)), st).
Proof.
  intros Hm Hpath Hauth.
  exists (sort_desc m_createdAt (filter (addressed_to (u_id u)) (messages st))).
  split; [symmetry; apply sort_desc_perm|].
  split; [apply sort_desc_sorted|].
  unfold dispatch, app, messageRoutes; cbn [run_app strip_prefix].
  rewrite Hpath; cbn [strip_prefix String.eqb Ascii.eqb Bool.eqb andb].
  cbn [run_router]. rewrite Hauth, Hm; cbn [method_eqb match_path run_handler].
  reflexivity.
Qed.

(** *** Creation stamps the owner *)

(** C5: [createPost] and [sendMessage] store the resolved identity as
    [post.user] / [message.sender]; the body is read only at the keys the
    handler destructures, so bodies that differ elsewhere (for instance in a
    client-supplied [user] or [sender]) give the same result. *)
Theorem creation_owner_from_identity (st : Store) (u : User)
  (req1 req2 : Request) :
  (forall p st', createPost st (Some u) req1 = (Respond 201 (BPost p), st') ->
     p_user p = RId (u_id u) /\ In p (posts st')) /\
  (forall m st', sendMessage st (Some u) req1 = (Respond 201 (BMessage m), st') ->
     m_sender m = RId (u_id u) /\ In m (messages st')) /\
  (jget "content" (rq_body req1) = jget "content" (rq_body req2) ->
   jget "image" (rq_body req1) = jget "image" (rq_body req2) ->
     createPost st (Some u) req1 = createPost st (Some u) req2) /\
  (jget "recipient" (rq_body req1) = jget "recipient" (rq_body req2) ->
   jget "content" (rq_body req1) = jget "content" (rq_body req2) ->
     sendMessage st (Some u) req1 = sendMessage st (Some u) req2).
Proof.
  split; [|split; [|split]].
  - intros p st' H; unfold createPost in H.
    destruct (required_string (jget "content" (rq_body req1))); [|discriminate].
    injection H as <- <-; split; [reflexivity|].
    simpl; apply in_or_app; right; left; reflexivity.
  - intros m st' H; unfold sendMessage in H.
    destruct (cast_oid (jget "recipient" (rq_body req1))); [|discriminate].
    destruct (required_string (jget "content" (rq_body req1))); [|discriminate].
    injection H as <- <-; split; [reflexivity|].
    simpl; apply in_or_app; right; left; reflexivity.
  - intros Hc Hi; unfold createPost; rewrite Hc, Hi; reflexivity.
  - intros Hr Hc; unfold sendMessage; rewrite Hr, Hc; reflexivity.
Qed.

(** *** Login failures *)

(** C7: for a login body with string [email] and [password], an unknown
    email and a wrong password for a known email give the same 401 response
    with the same body. *)
Theorem login_failures_same_response (env : Env) (st : Store)
  (req1 req2 : Request) (e1 e2 pw1 pw2 h : string) (u : User) :
  jget "email" (rq_body req1) = Some (JStr e1) ->
  jget "password" (rq_body req1) = Some (JStr pw1) ->
  jget "email" (rq_body req2) = Some (JStr e2) ->
  jget "password" (rq_body req2) = Some (JStr pw2) ->
  find_user_by_email (Some (JStr e1)) st = None ->
  find_user_by_email (Some (JStr e2)) st = Some u ->
  u_password u = Some h ->
  bcrypt_compare env pw2 h = false ->
  loginUser env st req1 = (Respond 401 (BMsg "Invalid email or password"), st) /\
  loginUser env st req2 = loginUser env st req1.
Proof.
  intros He1 Hp1 He2 Hp2 Hu1 Hu2 Hh Hc.
  assert (H1 : loginUser env st req1 =
               (Respond 401 (BMsg "Invalid email or password"), st)).
  { unfold loginUser; rewrite He1, Hu1; reflexivity. }
  split; [exact H1|]. rewrite H1.
  unfold loginUser, matchPassword; rewrite He2, Hu2, Hp2, Hh, Hc; reflexivity.
Qed.

(** *** Sending a message *)

(** C10 (as amended): for an authenticated [sendMessage], a body whose
    [recipient] casts to an ObjectId and whose [content] is a non-empty
    string gives 201 with the persisted message addressed to that id, with
    no lookup of the recipient among the users (the answer is the same
    whatever the stored users); any other body fails Mongoose validation,
    so the handler rejects, nothing is sent and the store is unchanged; and
    no body gives 404. *)
Theorem sendMessage_no_recipient_lookup (st : Store) (u : User)
  (req : Request) :
  (forall r c,
     cast_oid (jget "recipient" (rq_body req)) = Some r ->
     required_string (jget "content" (rq_body req)) = Some c ->
     exists m st',
       sendMessage st (Some u) req = (Respond 201 (BMessage m), st') /\
       m_recipient m = RId r /\ m_sender m = RId (u_id u) /\ m_content m = c /\
       In m (messages st') /\ users st' = users st /\
       (forall us, sendMessage (mkStore us (posts st) (messages st) (next_oid st)
                                        (now st) (hash_work st)) (Some u) req =
                   (Respond 201 (BMessage m),
                    mkStore us (posts st') (messages st') (next_oid st')
                            (now st') (hash_work st')))) /\
  (cast_oid (jget "recipient" (rq_body req)) = None \/
   required_string (jget "content" (rq_body req)) = None ->
     sendMessage st (Some u) req =
       (Unhandled "ValidationError: Message validation failed", st)) /\
  (forall b st', sendMessage st (Some u) req <> (Respond 404 b, st')).
Proof.
  split; [|split].
  - intros r c Hr Hc. unfold sendMessage; rewrite Hr, Hc.
    eexists; eexists; split; [reflexivity|].
    simpl; repeat split; auto.
    apply in_or_app; right; left; reflexivity.
  - unfold sendMessage; intros [H | H]; rewrite H; [reflexivity|].
    destruct (cast_oid (jget "recipient" (rq_body req))); reflexivity.
  - intros b st'; unfold sendMessage.
    destruct (cast_oid (jget "recipient" (rq_body req)));
      destruct (required_string (jget "content" (rq_body req))); discriminate.
Qed.

(** C10 counterexample: an authenticated [POST /api/messages] whose body has
    no [content] is not answered 201: the Mongoose validation error rejects
    the handler and no response is sent. *)
Lemma sendMessage_without_content_not_201 :
  dispatch test_env test_store
    (req_as POST ["api"; "messages"] "1" [("recipient", JStr (hex24 "9"))]) =
    (Some H_sendMessage, Unhandled "ValidationError: Message validation failed",
     test_store) /\
  (forall m st', sendMessage test_store (Some (without_password alice))
     (req_as POST ["api"; "messages"] "1" [("recipient", JStr (hex24 "9"))]) <>
     (Respond 201 (BMessage m), st')).
Proof.
  split; [vm_compute; reflexivity|].
  intros m st'; vm_compute; discriminate.
Qed.

(** *** Evaluations at concrete requests *)

(** C1: carol (id 3) reads message 10, sent by alice (1) to bob (2):
    [getMessage] answers 200 with the message. *)
Theorem getMessage_third_party_reads :
  dispatch test_env test_store
    (req_as GET ["api"; "messages"; hex24 "a"] "3" []) =
    (Some H_getMessage,
     Respond 200 (BMessage (populate_both test_store test_message)),
     test_store).
Proof. vm_compute; reflexivity. Qed.

(** C2: a token that verifies to id 9, which names no user: the gate calls
    [next()] with [req.user = null]; [getPosts] answers 200 and
    [sendMessage] runs and rejects on [req.user._id]. *)
Theorem deleted_identity_token_reaches_handlers :
  authMiddleware test_env test_store (req_as GET ["api"; "posts"] "9" []) =
    MwNext None /\
  dispatch test_env test_store (req_as GET ["api"; "posts"] "9" []) =
    (Some H_getPosts,
     Respond 200 (BPosts (map (populate_post_user test_store) [test_post])),
     test_store) /\
  dispatch test_env test_store
    (req_as POST ["api"; "messages"] "9"
            [("recipient", JStr (hex24 "1")); ("content", JStr "x")]) =
    (Some H_sendMessage, Unhandled type_error_user_id, test_store).
Proof. vm_compute; repeat split. Qed.

(** C3: registering the taken username [alice] with a fresh email passes the
    email check, hashes the password, and is then rejected by the unique
    index: no 400 response, one hashing step performed, no user added. *)
Theorem register_duplicate_username_hashes_then_fails :
  dispatch test_env test_store
    (mkRequest POST ["api"; "auth"; "register"] None
       [("username", JStr "alice"); ("email", JStr "new@x");
        ("password", JStr "pw")]) =
    (Some H_registerUser,
     Unhandled "MongoServerError: E11000 duplicate key error",
     mkStore [alice; bob; carol] [test_post] [test_message] 12%N 7%Z 1).
Proof. vm_compute; reflexivity. Qed.

(** ** Witnesses *)

Lemma deletePost_owner_or_404_witness :
  dispatch test_env test_store (req_as DELETE ["api"; "posts"; hex24 "b"] "1" []) =
    (Some H_deletePost, Respond 200 (BMsg "Post removed"), remove_post 11%N test_store) /\
  find_post 11%N (remove_post 11%N test_store) = None.
Proof.
  apply (proj1 (deletePost_owner_or_404 test_env test_store
           (req_as DELETE ["api"; "posts"; hex24 "b"] "1" []) (hex24 "b") 11%N
           (without_password alice) test_post
           ltac:(reflexivity) ltac:(reflexivity) ltac:(vm_compute; reflexivity)
           ltac:(vm_compute; reflexivity) ltac:(vm_compute; reflexivity))).
  reflexivity.
Defined.

Lemma auth_attaches_identity_without_password_witness :
  u_password (without_password alice) = None /\
  exists hdr tok id su,
    rq_authorization (req_as GET ["api"; "posts"] "1" []) = Some hdr /\
    bearer_token hdr = Some tok /\ jwt_verify test_env tok = Some id /\
    find_user id test_store = Some su /\ without_password alice = without_password su.
Proof.
  exact (auth_attaches_identity_without_password test_env test_store
           (req_as GET ["api"; "posts"] "1" []) (without_password alice)
           ltac:(vm_compute; reflexivity)).
Defined.

Definition witness_get_posts : Request := req_as GET ["api"; "posts"] "1" [].

Lemma protected_routes_need_verified_token_witness :
  exists hdr tok id,
    rq_authorization witness_get_posts = Some hdr /\
    String.prefix "Bearer" hdr = true /\
    bearer_token hdr = Some tok /\ tok <> "" /\ jwt_verify test_env tok = Some id.
Proof.
  exact (protected_routes_need_verified_token test_env test_store witness_get_posts
           H_getPosts (snd (fst (dispatch test_env test_store witness_get_posts)))
           (snd (dispatch test_env test_store witness_get_posts))
           ltac:(vm_compute; reflexivity) ltac:(reflexivity)).
Defined.

Lemma getMessages_inbox_newest_first_witness :
  exists l,
    Permutation l (filter (addressed_to 2%N) (messages test_store)) /\
    Sorted (newer_or_same m_createdAt) l /\
    dispatch test_env test_store (req_as GET ["api"; "messages"] "2" []) =
      (Some H_getMessages,
       Respond 200 (BMessages (map (populate_sender test_store) l)), test_store).
Proof.
  exact (getMessages_inbox_newest_first test_env test_store
           (req_as GET ["api"; "messages"] "2" []) (without_password bob)
           ltac:(reflexivity) ltac:(reflexivity) ltac:(vm_compute; reflexivity)).
Defined.

Definition witness_post_a : Request :=
  req_as POST ["api"; "posts"] "1" [("content", JStr "hey"); ("user", JStr (hex24 "2"))].
Definition witness_post_b : Request :=
  req_as POST ["api"; "posts"] "1" [("user", JStr (hex24 "3")); ("content", JStr "hey")].

Lemma creation_owner_from_identity_witness :
  createPost test_store (Some alice) witness_post_a =
    createPost test_store (Some alice) witness_post_b /\
  p_user (mkPost 12%N (RId 1%N) "hey" None [] [] 7%Z) = RId (u_id alice).
Proof.
  pose proof (creation_owner_from_identity test_store alice
                witness_post_a witness_post_b) as (H1 & _ & H3 & _).
  split.
  - apply H3; reflexivity.
  - apply (H1 (mkPost 12%N (RId 1%N) "hey" None [] [] 7%Z)
              (mkStore [alice; bob; carol]
                 [test_post; mkPost 12%N (RId 1%N) "hey" None [] [] 7%Z]
                 [test_message] 13%N 7%Z 0)).
    vm_compute; reflexivity.
Defined.

Definition witness_login_unknown : Request :=
  mkRequest POST ["api"; "auth"; "login"] None
    [("email", JStr "nobody@x"); ("password", JStr "pwalice")].
Definition witness_login_wrong : Request :=
  mkRequest POST ["api"; "auth"; "login"] None
    [("email", JStr "alice@x"); ("password", JStr "wrong")].

Lemma login_failures_same_response_witness :
  loginUser test_env test_store witness_login_unknown =
    (Respond 401 (BMsg "Invalid email or password"), test_store) /\
  loginUser test_env test_store witness_login_wrong =
    loginUser test_env test_store witness_login_unknown.
Proof.
  exact (login_failures_same_response test_env test_store
           witness_login_unknown witness_login_wrong
           "nobody@x" "alice@x" "pwalice" "wrong" "h:pwalice" alice
           ltac:(reflexivity) ltac:(reflexivity) ltac:(reflexivity)
           ltac:(reflexivity) ltac:(vm_compute; reflexivity)
           ltac:(vm_compute; reflexivity) ltac:(reflexivity)
           ltac:(vm_compute; reflexivity)).
Defined.

Definition witness_send : Request :=
  req_as POST ["api"; "messages"] "1"
    [("recipient", JStr (hex24 "9")); ("content", JStr "hi")].

Lemma sendMessage_no_recipient_lookup_witness :
  find_user 9%N test_store = None /\
  sendMessage test_store (Some alice) witness_send =
    (Respond 201 (BMessage (mkMessage 12%N (RId 1%N) (RId 9%N) "hi" false 7%Z)),
     snd (sendMessage test_store (Some alice) witness_send)) /\
  sendMessage test_store (Some alice)
    (req_as POST ["api"; "messages"] "1" [("recipient", JStr "abcdefghijkl")]) =
    (Unhandled "ValidationError: Message validation failed", test_store) /\
  exists m st',
    sendMessage test_store (Some alice)
      (req_as POST ["api"; "messages"] "1"
         [("recipient", JStr "abcdefghijkl"); ("content", JStr "hi")]) =
      (Respond 201 (BMessage m), st').
Proof.
  split; [vm_compute; reflexivity|]. split; [|split].
  - destruct (proj1 (sendMessage_no_recipient_lookup test_store alice witness_send)
                9%N "hi" ltac:(vm_compute; reflexivity) ltac:(vm_compute; reflexivity))
      as (m & st' & H & _).
    rewrite H; vm_compute in H; injection H as <- <-; reflexivity.
  - apply (proj1 (proj2 (sendMessage_no_recipient_lookup test_store alice
             (req_as POST ["api"; "messages"] "1" [("recipient", JStr "abcdefghijkl")])))).
    right; reflexivity.
  - destruct (proj1 (sendMessage_no_recipient_lookup test_store alice
        (req_as POST ["api"; "messages"] "1"
           [("recipient", JStr "abcdefghijkl"); ("content", JStr "hi")]))
        _ "hi" ltac:(vm_compute; reflexivity) ltac:(vm_compute; reflexivity))
      as (m & st' & H & _).
    exists m, st'; exact H.
Defined.

(** ** Further properties of the backend *)

(** *** Invariants of every request *)

Section DispatchInvariant.
Variable P : Store -> Store -> Prop.
Hypothesis P_refl : forall st, P st st.
Hypothesis P_handler : forall env st h user param req r st',
  run_handler env st h user param req = (r, st') -> P st st'.

Lemma run_router_inv (env : Env) (st : Store) (req : Request)
  (rest : list string) (ls : list Layer) :
  forall user o, run_router env st req rest user ls = Some o -> P st (snd o).
Proof.
  induction ls as [|[|m p h] ls IH]; simpl; intros user o H; [discriminate| |].
  - destruct (authMiddleware env st req).
    + eapply IH; eauto.
    + injection H as <-; apply P_refl.
  - destruct (method_eqb m (rq_method req)); [|eapply IH; eauto].
    destruct (match_path p rest) as [param|]; [|eapply IH; eauto].
    destruct (run_handler env st h user param req) as [r st'] eqn:Hh.
    injection H as <-; simpl; eapply P_handler; eauto.
Qed.

Lemma run_app_inv (env : Env) (st : Store) (req : Request)
  (mounts : list (list string * list Layer)) :
  P st (snd (run_app env st req mounts)).
Proof.
  induction mounts as [|[pre ls] ms IH]; simpl; [apply P_refl|].
  destruct (strip_prefix pre (rq_path req)) as [rest|]; [|exact IH].
  destruct (run_router env st req rest None ls) as [o|] eqn:Ho; [|exact IH].
  eapply run_router_inv; eauto.
Qed.

Lemma dispatch_inv (env : Env) (st : Store) (req : Request) :
  P st (snd (dispatch env st req)).
Proof. apply run_app_inv. Qed.
End DispatchInvariant.

Lemma store_grows_refl (st : Store) : store_grows st st.
Proof.
  repeat split.
  - exists []; rewrite app_nil_r; reflexivity.
  - exists []; rewrite app_nil_r; split; [reflexivity|constructor].
  - left; exists []; rewrite app_nil_r; reflexivity.
Qed.

Lemma run_handler_grows (env : Env) (st : Store) (h : Handler)
  (user : option User) (param : string) (req : Request)
  (r : Response) (st' : Store) :
  run_handler env st h user param req = (r, st') -> store_grows st st'.
Proof.
  intros H.
  destruct h; simpl in H;
    unfold registerUser, user_create, loginUser, createPost, getPosts, getPost,
           deletePost, sendMessage, getMessages, getMessage in H;
    split_matches H; inversion H; subst; clear H;
    unfold store_grows, remove_post; cbn [users messages posts];
    (split; [first [ exists []; rewrite app_nil_r; reflexivity
                   | eexists; reflexivity ] |]);
    (split; [first [ exists []; rewrite app_nil_r; split; [reflexivity|constructor]
                   | eexists; split; [reflexivity|repeat constructor] ] |]);
    first [ left; exists []; rewrite app_nil_r; reflexivity
          | left; eexists; reflexivity
          | right; eexists; reflexivity ].
Qed.

(** X1: no request modifies or deletes a stored user or message: both
    collections are only appended to, every appended message is unread, and
    the posts are appended to or lose every post of one id. *)
Theorem dispatch_store_grows (env : Env) (st : Store) (req : Request) :
  store_grows st (snd (dispatch env st req)).
Proof.
  apply (dispatch_inv store_grows store_grows_refl run_handler_grows).
Qed.

(** X2: no request marks a message read: if every stored message is unread,
    so is every message after any request. *)
Theorem dispatch_messages_stay_unread (env : Env) (st : Store) (req : Request) :
  Forall (fun m => m_read m = false) (messages st) ->
  Forall (fun m => m_read m = false) (messages (snd (dispatch env st req))).
Proof.
  intros Hst.
  destruct (dispatch_inv store_grows store_grows_refl run_handler_grows env st req)
    as (_ & (lm & Hm & Hlm) & _).
  rewrite Hm. apply Forall_app; split; assumption.
Qed.






(** *** Round trips *)

Lemma find_app_skip {A : Type} (f : A -> bool) (l l' : list A) :
  (forall x, In x l -> f x = false) -> find f (l ++ l') = find f l'.
Proof.
  induction l as [|y r IH]; simpl; intros H; [reflexivity|].
  rewrite (H y (or_introl eq_refl)); apply IH; auto.
Qed.

Lemma find_below_next {A : Type} (id_of : A -> oid) (n : oid) (l : list A) (x : A) :
  Forall (fun y => (id_of y < n)%N) l -> id_of x = n ->
  find (fun y => N.eqb (id_of y) n) (l ++ [x]) = Some x.
Proof.
  intros Hl Hx. rewrite find_app_skip.
  - simpl; rewrite Hx, N.eqb_refl; reflexivity.
  - rewrite Forall_forall in Hl; intros y Hy; apply N.eqb_neq.
    specialize (Hl y Hy); lia.
Qed.

(** X5: a post created by [createPost] is then returned by [getPost] on its
    id (given as its 24 hex digits), with its author populated. *)
Theorem createPost_then_getPost (st : Store) (u : User) (req : Request)
  (p : Post) (st' : Store) (s : string) :
  fresh_ids st ->
  createPost st (Some u) req = (Respond 201 (BPost p), st') ->
  parse_oid s = Some (p_id p) ->
  getPost st' s = (Respond 200 (BPost (populate_post_user st' p)), st').
Proof.
  intros (_ & Hp & _) H Hs. unfold createPost in H.
  destruct (required_string (jget "content" (rq_body req))); [|discriminate].
  injection H as <- <-.
  unfold getPost; rewrite Hs. unfold find_post; cbn [posts p_id].
  rewrite (find_below_next p_id (next_oid st) (posts st)); auto.
Qed.

(** X6: a message sent by [sendMessage] is then returned by [getMessage] on
    its id, with sender and recipient populated. *)
Theorem sendMessage_then_getMessage (st : Store) (u : User) (req : Request)
  (m : Message) (st' : Store) (s : string) :
  fresh_ids st ->
  sendMessage st (Some u) req = (Respond 201 (BMessage m), st') ->
  parse_oid s = Some (m_id m) ->
  getMessage st' s = (Respond 200 (BMessage (populate_both st' m)), st').
Proof.
  intros (_ & _ & Hm) H Hs. unfold sendMessage in H.
  destruct (cast_oid (jget "recipient" (rq_body req))); [|discriminate].
  destruct (required_string (jget "content" (rq_body req))); [|discriminate].
  injection H as <- <-.
  unfold getMessage; rewrite Hs. unfold find_message; cbn [messages m_id].
  rewrite (find_below_next m_id (next_oid st) (messages st)); auto.
Qed.

Lemma find_post_remove_post (id : oid) (st : Store) :
  find_post id (remove_post id st) = None.
Proof.
  unfold find_post, remove_post; cbn [posts].
  induction (posts st) as [|q qs IH]; simpl; [reflexivity|].
  destruct (N.eqb (p_id q) id) eqn:Hq; simpl; [exact IH|].
  rewrite Hq; exact IH.
Qed.

(** X7: after a successful [deletePost] on an id, [getPost] on the same id
    answers 404. *)
Theorem deletePost_then_getPost (st : Store) (u : User) (s : string)
  (b : Body) (st' : Store) :
  deletePost st (Some u) s = (Respond 200 b, st') ->
  getPost st' s = (Respond 404 (BMsg "Post not found"), st').
Proof.
  unfold deletePost. intros H.
  destruct (parse_oid s) as [id|] eqn:Hs; [|discriminate].
  destruct (find_post id st) as [p|]; [|discriminate].
  destruct (ref_is (p_user p) (u_id u)); [|discriminate].
  injection H as _ <-.
  unfold getPost; rewrite Hs, find_post_remove_post; reflexivity.
Qed.

(** X8: with a [bcrypt.compare] that accepts what [bcrypt.hash] produced, a
    user who registered can log in with the same email and password, and
    gets back the id, username and email of the registration. *)
Theorem register_then_login (env : Env) (st : Store) (req req2 : Request)
  (id : oid) (name email tok pw : string) (st' : Store) :
  (forall salt p, bcrypt_compare env p (bcrypt_hash env salt p) = true) ->
  registerUser env st req = (Respond 201 (BUser id name email tok), st') ->
  required_string (jget "password" (rq_body req)) = Some pw ->
  jget "email" (rq_body req2) = Some (JStr email) ->
  jget "password" (rq_body req2) = Some (JStr pw) ->
  loginUser env st' req2 =
    (Respond 200 (BUser id name email (jwt_sign env id)), st').
Proof.
  intros Hb H Hpw He2 Hp2.
  unfold registerUser in H.
  destruct (find_user_by_email (jget "email" (rq_body req)) st) eqn:Hfind;
    [discriminate|].
  unfold user_create in H. rewrite Hpw in H.
  destruct (required_string (jget "username" (rq_body req))) as [name0|] eqn:Hn;
    [|discriminate].
  destruct (required_string (jget "email" (rq_body req))) as [email0|] eqn:Hem;
    [|discriminate].
  destruct (existsb _ (users st)); [discriminate|].
  injection H as <- <- <- _ <-.
  assert (Hnone : forall x, In x (users st) -> String.eqb (u_email x) email0 = false).
  { unfold required_string in Hem.
    destruct (cast_string (jget "email" (rq_body req))) as [e|] eqn:Hc;
      [|discriminate].
    assert (e = email0) as <- by (destruct e as [|c e']; [discriminate|injection Hem; auto]).
    unfold find_user_by_email in Hfind.
    destruct (jget "email" (rq_body req)) as [v|]; [|discriminate].
    rewrite Hc in Hfind.
    intros x Hx. destruct (String.eqb (u_email x) e) eqn:Ex; [|reflexivity].
    exfalso. clear -Hfind Hx Ex.
    induction (users st) as [|y ys IH]; simpl in *; [contradiction|].
    destruct (String.eqb (u_email y) e) eqn:Ey; [discriminate|].
    destruct Hx as [-> | Hx]; [congruence | auto]. }
  unfold loginUser, find_user_by_email. rewrite He2; cbn [cast_string users].
  rewrite find_app_skip by exact Hnone.
  simpl. rewrite String.eqb_refl.
  unfold matchPassword; rewrite Hp2; cbn [u_password]. rewrite Hb. reflexivity.
Qed.

(** *** The auth gate and routing *)

(** X9: every rejection by the gate is a 401; it says "no token" exactly
    when the header is missing or does not start with [Bearer], and "token
    failed" when it does. *)
Theorem authMiddleware_rejections (env : Env) (st : Store) (req : Request)
  (s : Z) (msg : string) :
  authMiddleware env st req = MwReject s msg ->
  s = 401%Z /\
  ((msg = "Not authorized, no token" /\
    forall h, rq_authorization req = Some h -> String.prefix "Bearer" h = false) \/
   (msg = "Not authorized, token failed" /\
    exists h, rq_authorization req = Some h /\ String.prefix "Bearer" h = true)).
Proof.
  unfold authMiddleware.
  destruct (rq_authorization req) as [h|] eqn:Ha.
  - destruct (String.prefix "Bearer" h) eqn:Hp.
    + intros H; split_matches H; injection H as <- <-;
        split; auto; right; split; eauto.
    + intros H; injection H as <- <-; split; auto; left; split; auto.
      intros h' Hh'; injection Hh' as <-; exact Hp.
  - intros H; injection H as <- <-; split; auto; left; split; auto.
    intros h' Hh'; discriminate Hh'.
Qed.

Lemma split_sp_no_space (t : string) :
  ~ In " "%char (list_ascii_of_string t) -> split_sp t = [t].
Proof.
  induction t as [|c r IH]; simpl; intros Hn; [reflexivity|].
  rewrite IH by tauto.
  destruct (Ascii.eqb c " "%char) eqn:Hc; [|reflexivity].
  apply Ascii.eqb_eq in Hc; subst; tauto.
Qed.

(** X10: for a header ["Bearer " ++ t] with a non-empty, space-free [t],
    the gate verifies exactly [t]: it attaches the user [t] names (without
    its password, or [null] when there is none) or answers 401
    "token failed". *)
Theorem authMiddleware_verifies_bearer_token (env : Env) (st : Store)
  (req : Request) (t : string) :
  rq_authorization req = Some ("Bearer " ++ t) ->
  t <> "" ->
  ~ In " "%char (list_ascii_of_string t) ->
  authMiddleware env st req =
    match jwt_verify env t with
    | Some id => MwNext (option_map without_password (find_user id st))
    | None => MwReject 401 "Not authorized, token failed"
    end.
Proof.
  intros Ha Hne Hsp. unfold authMiddleware; rewrite Ha.
  assert (Hb : bearer_token ("Bearer " ++ t) = Some t).
  { unfold bearer_token; simpl; rewrite split_sp_no_space by exact Hsp; reflexivity. }
  simpl String.prefix; cbv iota beta. rewrite Hb.
  destruct (String.eqb t "") eqn:He; [apply String.eqb_eq in He; contradiction|].
  reflexivity.
Qed.

(** X11: a request with no [Authorization] header to any path under
    [/api/posts] or [/api/messages] (a route or not, any method) gets 401
    "no token", no handler runs and the store is unchanged. *)
Theorem protected_mounts_without_header (env : Env) (st : Store)
  (req : Request) (mount : string) (rest : list string) :
  rq_authorization req = None ->
  mount = "posts" \/ mount = "messages" ->
  rq_path req = "api" :: mount :: rest ->
  dispatch env st req = (None, Respond 401 (BMsg "Not authorized, no token"), st).
Proof.
  intros Hn Hm Hp.
  assert (Hauth : authMiddleware env st req = MwReject 401 "Not authorized, no token")
    by (unfold authMiddleware; rewrite Hn; reflexivity).
  unfold dispatch, app; cbn [run_app]; rewrite Hp.
  destruct Hm as [-> | ->]; cbn [strip_prefix String.eqb Ascii.eqb Bool.eqb andb];
    cbn [run_router postRoutes messageRoutes]; rewrite Hauth; reflexivity.
Qed.

(** The auth router is reached without the gate. *)
Lemma auth_router_dispatch (env : Env) (st : Store) (req : Request)
  (r : Response) (st' : Store) :
  rq_method req = POST ->
  (rq_path req = ["api"; "auth"; "register"] ->
     registerUser env st req = (r, st') ->
     dispatch env st req = (Some H_registerUser, r, st')) /\
  (rq_path req = ["api"; "auth"; "login"] ->
     loginUser env st req = (r, st') ->
     dispatch env st req = (Some H_loginUser, r, st')).
Proof.
  intros Hm; split; intros Hp Hh;
    unfold dispatch, app; cbn [run_app]; rewrite Hp;
    cbn [strip_prefix String.eqb Ascii.eqb Bool.eqb andb run_router authRoutes];
    rewrite Hm; cbn [method_eqb match_path String.eqb Ascii.eqb Bool.eqb andb run_handler];
    rewrite Hh; reflexivity.
Qed.

(** X12: [POST /api/auth/register] and [POST /api/auth/login] are not
    behind the gate: they run their handler whatever the [Authorization]
    header. *)
Theorem auth_routes_ungated (env : Env) (st : Store) (req : Request)
  (r : Response) (st' : Store) :
  rq_method req = POST ->
  (rq_path req = ["api"; "auth"; "register"] ->
     registerUser env st req = (r, st') ->
     dispatch env st req = (Some H_registerUser, r, st')) /\
  (rq_path req = ["api"; "auth"; "login"] ->
     loginUser env st req = (r, st') ->
     dispatch env st req = (Some H_loginUser, r, st')).
Proof.
  apply auth_router_dispatch.
Qed.

(** *** Registration *)

(** X13: registering with an email string some stored user already has
    answers 400 "User already exists" and leaves the store unchanged, with
    no hashing done. *)
Theorem register_taken_email_400 (env : Env) (st : Store) (req : Request)
  (e : string) (u : User) :
  rq_method req = POST ->
  rq_path req = ["api"; "auth"; "register"] ->
  jget "email" (rq_body req) = Some (JStr e) ->
  In u (users st) -> u_email u = e ->
  dispatch env st req =
    (Some H_registerUser, Respond 400 (BMsg "User already exists"), st).
Proof.
  intros Hm Hp He Hin Hue.
  apply (proj1 (auth_router_dispatch env st req _ st Hm)); [exact Hp|].
  unfold registerUser, find_user_by_email; rewrite He; cbn [cast_string].
  destruct (find (fun u0 => String.eqb (u_email u0) e) (users st)) eqn:Hf;
    [reflexivity|].
  pose proof (find_none _ _ Hf u Hin) as Hu; simpl in Hu.
  rewrite Hue, String.eqb_refl in Hu; discriminate Hu.
Qed.

(** X14: a successful registration appends exactly one user, with the next
    ObjectId, the given username and email, and as password the bcrypt
    hash of the given password (one hashing step); the response carries
    [generateToken] of the new id and no password. *)
Theorem register_success_stores_hash (env : Env) (st : Store) (req : Request)
  (id : oid) (name email tok : string) (st' : Store) :
  registerUser env st req = (Respond 201 (BUser id name email tok), st') ->
  exists pw,
    required_string (jget "password" (rq_body req)) = Some pw /\
    required_string (jget "username" (rq_body req)) = Some name /\
    required_string (jget "email" (rq_body req)) = Some email /\
    id = next_oid st /\ tok = jwt_sign env id /\
    users st' = (users st ++
                 [mkUser id name email (Some (bcrypt_hash env (hash_work st) pw))
                         None None [] [] (now st)])%list /\
    posts st' = posts st /\ messages st' = messages st /\
    next_oid st' = N.succ id /\ hash_work st' = S (hash_work st).
Proof.
  unfold registerUser. intros H.
  destruct (find_user_by_email (jget "email" (rq_body req)) st); [discriminate|].
  unfold user_create in H.
  destruct (required_string (jget "username" (rq_body req))) as [n|]; [|discriminate].
  destruct (required_string (jget "email" (rq_body req))) as [em|]; [|discriminate].
  destruct (required_string (jget "password" (rq_body req))) as [pw|]; [|discriminate].
  destruct (existsb _ (users st)); [discriminate|].
  injection H as <- <- <- <- <-.
  exists pw; repeat split; reflexivity.
Qed.

(** *** Reads *)

(** X15: [GET /api/posts] past the gate answers 200 with every stored post,
    newest first, each with its author populated; it does not depend on
    which identity (if any) the gate attached. *)
Theorem getPosts_all_newest_first (env : Env) (st : Store) (req : Request)
  (u : option User) :
  rq_method req = GET ->
  rq_path req = ["api"; "posts"] ->
  authMiddleware env st req = MwNext u ->
  exists l,
    Permutation l (posts st) /\ Sorted (newer_or_same p_createdAt) l /\
    dispatch env st req =
      (Some H_getPosts, Respond 200 (BPosts (map (populate_post_user st) l)), st).
Proof.
  intros Hm Hp Hauth.
  exists (sort_desc p_createdAt (posts st)).
  split; [symmetry; apply sort_desc_perm|].
  split; [apply sort_desc_sorted|].
  unfold dispatch, app, postRoutes; cbn [run_app strip_prefix].
  rewrite Hp; cbn [strip_prefix String.eqb Ascii.eqb Bool.eqb andb].
  cbn [run_router]. rewrite Hauth, Hm; cbn [method_eqb match_path run_handler].
  reflexivity.
Qed.

(** X16: past the gate, a [:id] that is not an ObjectId (neither 12
    characters below 128 nor 24 hex digits) makes
    [GET /api/posts/:id], [DELETE /api/posts/:id] and
    [GET /api/messages/:id] reject with a CastError: no response is sent and
    the store is unchanged. *)
Theorem malformed_id_no_response (env : Env) (st : Store) (req : Request)
  (s : string) (u : option User) :
  s <> "" -> parse_oid s = None ->
  authMiddleware env st req = MwNext u ->
  (rq_method req = GET -> rq_path req = ["api"; "posts"; s] ->
     dispatch env st req =
       (Some H_getPost, Unhandled "CastError: Cast to ObjectId failed", st)) /\
  (rq_method req = DELETE -> rq_path req = ["api"; "posts"; s] ->
     dispatch env st req =
       (Some H_deletePost, Unhandled "CastError: Cast to ObjectId failed", st)) /\
  (rq_method req = GET -> rq_path req = ["api"; "messages"; s] ->
     dispatch env st req =
       (Some H_getMessage, Unhandled "CastError: Cast to ObjectId failed", st)).
Proof.
  intros Hne Hs Hauth.
  assert (He : String.eqb s "" = false) by (apply String.eqb_neq; exact Hne).
  split; [|split]; intros Hm Hp;
    unfold dispatch, app, postRoutes, messageRoutes; cbn [run_app strip_prefix];
    rewrite Hp; cbn [strip_prefix String.eqb Ascii.eqb Bool.eqb andb];
    cbn [run_router]; rewrite Hauth, Hm; cbn [method_eqb match_path];
    rewrite He; cbn [run_handler]; unfold getPost, deletePost, getMessage;
    rewrite Hs; reflexivity.
Qed.

(** X17: [loginUser] never changes the store, and it answers 200 only for
    the user [User.findOne({ email })] finds, when [bcrypt.compare] accepts
    the given password string against that user's stored hash; the
    response carries that user's id, username, email and
    [generateToken(id)]. *)
Theorem login_success_requires_password (env : Env) (st : Store)
  (req : Request) (r : Response) (st' : Store) :
  loginUser env st req = (r, st') ->
  st' = st /\
  forall id name email tok, r = Respond 200 (BUser id name email tok) ->
  exists u pw h,
    find_user_by_email (jget "email" (rq_body req)) st = Some u /\
    jget "password" (rq_body req) = Some (JStr pw) /\
    u_password u = Some h /\ bcrypt_compare env pw h = true /\
    id = u_id u /\ name = u_username u /\ email = u_email u /\
    tok = jwt_sign env (u_id u).
Proof.
  unfold loginUser. intros H.
  destruct (find_user_by_email (jget "email" (rq_body req)) st) as [u|] eqn:Hf.
  - unfold matchPassword in H.
    destruct (jget "password" (rq_body req)) as [[pw| |]|] eqn:Hp;
      destruct (u_password u) as [h|] eqn:Hh;
      try (injection H as <- <-; split; [reflexivity|]; intros; discriminate).
    destruct (bcrypt_compare env pw h) eqn:Hc;
      injection H as <- <-; split; [reflexivity| |reflexivity|]; intros id name email tok Hr;
      try discriminate Hr.
    injection Hr as <- <- <- <-.
    exists u, pw, h; repeat split; auto.
  - injection H as <- <-; split; [reflexivity|]; intros; discriminate.
Qed.

(** ** Witnesses of the further properties *)

Definition witness_register : Request :=
  mkRequest POST ["api"; "auth"; "register"] None
    [("username", JStr "dave"); ("email", JStr "dave@x"); ("password", JStr "pw")].

Definition witness_register_taken : Request :=
  mkRequest POST ["api"; "auth"; "register"] None
    [("username", JStr "x"); ("email", JStr "bob@x"); ("password", JStr "p")].

Definition witness_login_dave : Request :=
  mkRequest POST ["api"; "auth"; "login"] None
    [("email", JStr "dave@x"); ("password", JStr "pw")].

Lemma dispatch_messages_stay_unread_witness :
  Forall (fun m => m_read m = false)
         (messages (snd (dispatch test_env test_store witness_send))).
Proof.
  exact (dispatch_messages_stay_unread test_env test_store witness_send
           ltac:(repeat constructor)).
Defined.


Definition witness_post12 : Post := mkPost 12%N (RId 1%N) "hey" None [] [] 7%Z.

Lemma createPost_then_getPost_witness :
  getPost (snd (createPost test_store (Some alice) witness_post_a)) (hex24 "c") =
    (Respond 200 (BPost (populate_post_user
                           (snd (createPost test_store (Some alice) witness_post_a))
                           witness_post12)),
     snd (createPost test_store (Some alice) witness_post_a)).
Proof.
  exact (createPost_then_getPost test_store alice witness_post_a witness_post12
           (snd (createPost test_store (Some alice) witness_post_a)) (hex24 "c")
           ltac:(repeat split; repeat constructor; simpl; lia)
           ltac:(vm_compute; reflexivity) ltac:(vm_compute; reflexivity)).
Defined.

Definition witness_msg12 : Message :=
  mkMessage 12%N (RId 1%N) (RId 9%N) "hi" false 7%Z.

Lemma sendMessage_then_getMessage_witness :
  getMessage (snd (sendMessage test_store (Some alice) witness_send)) (hex24 "c") =
    (Respond 200 (BMessage (populate_both
                              (snd (sendMessage test_store (Some alice) witness_send))
                              witness_msg12)),
     snd (sendMessage test_store (Some alice) witness_send)).
Proof.
  exact (sendMessage_then_getMessage test_store alice witness_send witness_msg12
           (snd (sendMessage test_store (Some alice) witness_send)) (hex24 "c")
           ltac:(repeat split; repeat constructor; simpl; lia)
           ltac:(vm_compute; reflexivity) ltac:(vm_compute; reflexivity)).
Defined.

Lemma deletePost_then_getPost_witness :
  getPost (remove_post 11%N test_store) (hex24 "b") =
    (Respond 404 (BMsg "Post not found"), remove_post 11%N test_store).
Proof.
  exact (deletePost_then_getPost test_store alice (hex24 "b") (BMsg "Post removed")
           (remove_post 11%N test_store) ltac:(vm_compute; reflexivity)).
Defined.

Lemma register_then_login_witness :
  loginUser test_env (snd (registerUser test_env test_store witness_register))
            witness_login_dave =
    (Respond 200 (BUser 12%N "dave" "dave@x" (jwt_sign test_env 12%N)),
     snd (registerUser test_env test_store witness_register)).
Proof.
  exact (register_then_login test_env test_store witness_register witness_login_dave
           12%N "dave" "dave@x" "signed" "pw"
           (snd (registerUser test_env test_store witness_register))
           (fun salt p => String.eqb_refl ("h:" ++ p))
           ltac:(vm_compute; reflexivity) ltac:(vm_compute; reflexivity)
           ltac:(reflexivity) ltac:(reflexivity)).
Defined.

Definition witness_basic_auth : Request :=
  mkRequest GET ["api"; "posts"] (Some "Basic abc") [].

Lemma authMiddleware_rejections_witness :
  authMiddleware test_env test_store witness_basic_auth =
    MwReject 401 "Not authorized, no token" /\ (401 = 401)%Z.
Proof.
  split; [vm_compute; reflexivity|].
  exact (proj1 (authMiddleware_rejections test_env test_store witness_basic_auth
                  401 "Not authorized, no token" ltac:(vm_compute; reflexivity))).
Defined.

Definition witness_bearer : Request :=
  mkRequest GET ["api"; "posts"] (Some ("Bearer " ++ "tok1")) [].

Lemma authMiddleware_verifies_bearer_token_witness :
  authMiddleware test_env test_store witness_bearer =
    MwNext (Some (without_password alice)).
Proof.
  rewrite (authMiddleware_verifies_bearer_token test_env test_store witness_bearer
             "tok1" ltac:(reflexivity) ltac:(discriminate)
             ltac:(simpl; intuition discriminate)).
  vm_compute; reflexivity.
Defined.

Definition witness_put_posts : Request :=
  mkRequest PUT ["api"; "posts"; "anything"] None [].

Lemma protected_mounts_without_header_witness :
  dispatch test_env test_store witness_put_posts =
    (None, Respond 401 (BMsg "Not authorized, no token"), test_store).
Proof.
  exact (protected_mounts_without_header test_env test_store witness_put_posts
           "posts" ["anything"] ltac:(reflexivity) (or_introl eq_refl)
           ltac:(reflexivity)).
Defined.

Lemma auth_routes_ungated_witness :
  dispatch test_env test_store witness_login_wrong =
    (Some H_loginUser, fst (loginUser test_env test_store witness_login_wrong),
     snd (loginUser test_env test_store witness_login_wrong)).
Proof.
  exact (proj2 (auth_routes_ungated test_env test_store witness_login_wrong
                  (fst (loginUser test_env test_store witness_login_wrong))
                  (snd (loginUser test_env test_store witness_login_wrong))
                  ltac:(reflexivity))
               ltac:(reflexivity) ltac:(vm_compute; reflexivity)).
Defined.

Lemma register_taken_email_400_witness :
  dispatch test_env test_store witness_register_taken =
    (Some H_registerUser, Respond 400 (BMsg "User already exists"), test_store).
Proof.
  exact (register_taken_email_400 test_env test_store witness_register_taken
           "bob@x" bob ltac:(reflexivity) ltac:(reflexivity) ltac:(reflexivity)
           ltac:(simpl; tauto) ltac:(reflexivity)).
Defined.

Lemma register_success_stores_hash_witness :
  exists pw, required_string (jget "password" (rq_body witness_register)) = Some pw.
Proof.
  destruct (register_success_stores_hash test_env test_store witness_register
              12%N "dave" "dave@x" "signed"
              (snd (registerUser test_env test_store witness_register))
              ltac:(vm_compute; reflexivity)) as (pw & Hpw & _).
  exists pw; exact Hpw.
Defined.

Lemma getPosts_all_newest_first_witness :
  exists l,
    Permutation l (posts test_store) /\ Sorted (newer_or_same p_createdAt) l /\
    dispatch test_env test_store witness_get_posts =
      (Some H_getPosts, Respond 200 (BPosts (map (populate_post_user test_store) l)),
       test_store).
Proof.
  exact (getPosts_all_newest_first test_env test_store witness_get_posts
           (Some (without_password alice)) ltac:(reflexivity) ltac:(reflexivity)
           ltac:(vm_compute; reflexivity)).
Defined.

Definition witness_bad_id : Request := req_as GET ["api"; "posts"; "zz"] "1" [].

Lemma malformed_id_no_response_witness :
  dispatch test_env test_store witness_bad_id =
    (Some H_getPost, Unhandled "CastError: Cast to ObjectId failed", test_store) /\
  dispatch test_env test_store (req_as GET ["api"; "posts"; "abcdefghijkl"] "1" []) =
    (Some H_getPost, Respond 404 (BMsg "Post not found"), test_store).
Proof.
  split; [|vm_compute; reflexivity].
  exact (proj1 (malformed_id_no_response test_env test_store witness_bad_id "zz"
                  (Some (without_password alice)) ltac:(discriminate)
                  ltac:(reflexivity) ltac:(vm_compute; reflexivity))
               ltac:(reflexivity) ltac:(reflexivity)).
Defined.

Definition witness_login_alice : Request :=
  mkRequest POST ["api"; "auth"; "login"] None
    [("email", JStr "alice@x"); ("password", JStr "pwalice")].

Lemma login_success_requires_password_witness :
  snd (loginUser test_env test_store witness_login_alice) = test_store.
Proof.
  exact (proj1 (login_success_requires_password test_env test_store
                  witness_login_alice
                  (fst (loginUser test_env test_store witness_login_alice))
                  (snd (loginUser test_env test_store witness_login_alice))
                  ltac:(vm_compute; reflexivity))).
Defined.
